(** * MPR121_Helper: a verified model of the capacitive-touch wrapper

    Shallow embedding of [examples/mpr121-capacitive-stream/MPR121_Helper.h].
    The wrapper keeps two generations of a 12-bit touch mask and a cache of
    twelve filtered readings, all pulled from an [Adafruit_MPR121] driver that
    it reaches through a pointer.

    - unsigned C++ integers are [Z] values, wrap-around written with [mod];
    - the driver is an interface (a type class over the driver's state);
    - driver objects live in a store indexed by addresses, the wrapper holds
      an address; dereferencing an address that holds no driver, or indexing
      the cache array outside its bounds, is undefined behaviour and makes a
      program return [None]. *)

From Stdlib Require Import ZArith Lia Bool.
From stdpp Require Import base option list list_numbers gmap.

Local Open Scope Z_scope.

(** ** Machine integers *)

Definition uint8 (z : Z) : Z := z mod 2 ^ 8.
Definition uint16 (z : Z) : Z := z mod 2 ^ 16.

Definition is_uint8 (z : Z) : Prop := 0 <= z < 2 ^ 8.
Definition is_uint16 (z : Z) : Prop := 0 <= z < 2 ^ 16.

(** ** The driver interface

    [Adafruit_MPR121.h] is a third-party header; the wrapper uses three of
    its methods.  A driver state of type [D] stands for the driver object
    together with the hardware behind it, so every call may change it. *)

Module Driver.

Class Adafruit_MPR121 (D : Type) := {
  (** [uint16_t touched(void)] *)
  touched : D -> Z * D;
  (** [uint16_t filteredData(uint8_t t)] *)
  filteredData : Z -> D -> Z * D;
  (** [void setThresholds(uint8_t touch, uint8_t release)] *)
  setThresholds : Z -> Z -> D -> D;
  (** the two readers return [uint16_t] *)
  touched_uint16 : forall d, is_uint16 (touched d).1;
  filteredData_uint16 : forall t d, is_uint16 (filteredData t d).1
}.

End Driver.

(** ** Programs over the store of driver objects *)

Section Programs.

Context {D : Type}.

(** A program reads and updates the store; [None] is undefined behaviour. *)
Definition M (A : Type) : Type := gmap N D -> option (A * gmap N D).

Definition ret {A} (a : A) : M A := fun mem => Some (a, mem).

Definition bind {A B} (m : M A) (k : A -> M B) : M B :=
  fun mem =>
    match m mem with
    | Some (a, mem') => k a mem'
    | None => None
    end.

Definition lift {A} (o : option A) : M A :=
  fun mem =>
    match o with
    | Some a => Some (a, mem)
    | None => None
    end.

(** [p->method(...)] where the method returns a value. *)
Definition call {A} (p : N) (method : D -> A * D) : M A :=
  fun mem =>
    match mem !! p with
    | Some d => let '(a, d') := method d in Some (a, <[p := d']> mem)
    | None => None
    end.

(** [p->method(...)] for a [void] method. *)
Definition call_void (p : N) (method : D -> D) : M unit :=
  call p (fun d => (tt, method d)).

(** [for (uint8_t i = ...; ...; i++) body], given the values [i] takes in
    order; [seqZ 0 12] is 0, 1, ..., 11. *)
Fixpoint for_each {S} (indices : list Z) (body : Z -> S -> M S) (s : S) : M S :=
  match indices with
  | [] => ret s
  | i :: rest => bind (body i s) (for_each rest body)
  end.

End Programs.

Arguments M : clear implicits.

Declare Scope prog_scope.
Delimit Scope prog_scope with prog.
Notation "'let*' x ':=' m 'in' k" :=
  (bind m (fun x => k))
  (at level 10, x name, m at level 100, k at level 200) : prog_scope.

(** ** Arrays of [uint16_t]

    An access outside the array is undefined behaviour. *)

Definition array_get (a : list Z) (i : Z) : option Z :=
  if (0 <=? i) && (i <? Z.of_nat (length a)) then a !! Z.to_nat i else None.

Definition array_set (a : list Z) (i v : Z) : option (list Z) :=
  if (0 <=? i) && (i <? Z.of_nat (length a))
  then Some (<[Z.to_nat i := v]> a)
  else None.

(** ** The wrapper *)

Record MPR121_Helper := mkHelper {
  sensor : N;                      (* Adafruit_MPR121* sensor *)
  currentTouchData : Z;            (* uint16_t *)
  lastTouchData : Z;               (* uint16_t *)
  filteredDataCache : list Z       (* uint16_t [12] *)
}.

Definition set_sensor (p : N) (self : MPR121_Helper) : MPR121_Helper :=
  mkHelper p (currentTouchData self) (lastTouchData self) (filteredDataCache self).
Definition set_currentTouchData (v : Z) (self : MPR121_Helper) : MPR121_Helper :=
  mkHelper (sensor self) v (lastTouchData self) (filteredDataCache self).
Definition set_lastTouchData (v : Z) (self : MPR121_Helper) : MPR121_Helper :=
  mkHelper (sensor self) (currentTouchData self) v (filteredDataCache self).
Definition set_filteredDataCache (a : list Z) (self : MPR121_Helper) : MPR121_Helper :=
  mkHelper (sensor self) (currentTouchData self) (lastTouchData self) a.

(** [filteredDataCache[i] = v] *)
Definition store_filteredDataCache {D} (i v : Z) (self : MPR121_Helper)
  : M D MPR121_Helper :=
  (let* a := lift (array_set (filteredDataCache self) i v) in
   ret (set_filteredDataCache a self))%prog.

Section Methods.

Context {D : Type} `{!Driver.Adafruit_MPR121 D}.

(** The constructor runs on the storage of the new object, whose members
    hold indeterminate values: [this] is that storage. *)
Definition new_MPR121_Helper (this : MPR121_Helper) (cap : N)
  : M D MPR121_Helper :=
  let this := set_sensor cap this in
  let this := set_currentTouchData 0 this in
  let this := set_lastTouchData 0 this in
  for_each (seqZ 0 12) (fun i self => store_filteredDataCache i 0 self) this.

Definition updateTouchData (self : MPR121_Helper) : M D MPR121_Helper :=
  let self := set_lastTouchData (currentTouchData self) self in
  (let* m := call (sensor self) Driver.touched in
   ret (set_currentTouchData m self))%prog.

Definition updateFilteredData (self : MPR121_Helper) : M D MPR121_Helper :=
  for_each (seqZ 0 12)
    (fun i self =>
       (let* v := call (sensor self) (Driver.filteredData i) in
        store_filteredDataCache i v self)%prog)
    self.

Definition setThresholds (self : MPR121_Helper)
    (touchThreshold releaseThreshold : Z) : M D unit :=
  call_void (sensor self) (Driver.setThresholds touchThreshold releaseThreshold).

Definition setTouchThreshold (self : MPR121_Helper) (threshold : Z) : M D unit :=
  call_void (sensor self) (Driver.setThresholds threshold 20).

Definition setReleaseThreshold (self : MPR121_Helper) (threshold : Z) : M D unit :=
  call_void (sensor self) (Driver.setThresholds 40 threshold).

End Methods.

(** The queries read the wrapper only.  [electrode] is the [uint8_t] value
    the method receives.  The operands of [&] and [<<] are promoted to
    [int]; under the guard the shift count is at most 11, so
    [1 << electrode] is at most 2048 and fits every [int]. *)

Definition getTouchData (self : MPR121_Helper) (electrode : Z) : bool :=
  if electrode >? 11 then false
  else negb (Z.land (currentTouchData self) (Z.shiftl 1 electrode) =? 0).

Definition isTouched (self : MPR121_Helper) (electrode : Z) : bool :=
  if electrode >? 11 then false
  else negb (Z.land (currentTouchData self) (Z.shiftl 1 electrode) =? 0).

Definition wasTouched (self : MPR121_Helper) (electrode : Z) : bool :=
  if electrode >? 11 then false
  else negb (Z.land (lastTouchData self) (Z.shiftl 1 electrode) =? 0).

Definition isNewTouch (self : MPR121_Helper) (electrode : Z) : bool :=
  isTouched self electrode && negb (wasTouched self electrode).

Definition isNewRelease (self : MPR121_Helper) (electrode : Z) : bool :=
  negb (isTouched self electrode) && wasTouched self electrode.

(** [count] is a [uint8_t], so [count++] wraps at 256. *)
Definition getNumTouches (self : MPR121_Helper) : Z :=
  foldl (fun count i => if isTouched self i then uint8 (count + 1) else count)
        0 (seqZ 0 12).

(** [None]: the array was indexed outside its bounds. *)
Definition getFilteredData (self : MPR121_Helper) (electrode : Z) : option Z :=
  if electrode >? 11 then Some 0
  else array_get (filteredDataCache self) electrode.

(** ** Population count *)

Fixpoint pos_popcount (p : positive) : Z :=
  match p with
  | xH => 1
  | xO q => pos_popcount q
  | xI q => 1 + pos_popcount q
  end.

(** Number of 1 bits of a non-negative integer. *)
Definition popcount (z : Z) : Z :=
  match z with
  | Zpos p => pos_popcount p
  | _ => 0
  end.

(** ** What the driver hands out to twelve successive channel reads

    [read_channels n i d] asks the driver in state [d] for channels
    [i], [i+1], ..., [i+n-1] in this order and returns the readings together
    with the driver's final state. *)

Fixpoint read_channels {D} `{!Driver.Adafruit_MPR121 D}
    (n : nat) (i : Z) (d : D) : list Z * D :=
  match n with
  | O => ([], d)
  | S n' =>
      let '(v, d1) := Driver.filteredData i d in
      let '(vs, d') := read_channels n' (i + 1) d1 in
      (v :: vs, d')
  end.

(** ** Well-formed wrapper objects *)

Record wf (self : MPR121_Helper) : Prop := {
  wf_current : is_uint16 (currentTouchData self);
  wf_last : is_uint16 (lastTouchData self);
  wf_length : length (filteredDataCache self) = 12%nat;
  wf_cache : Forall is_uint16 (filteredDataCache self)
}.

(** ** A scripted driver for concrete runs

    [touch_script] lists the masks that successive [touched()] calls return
    (0 once the script is exhausted), [filtered_table] the reading of each
    channel, and [thresholds_log] records every [setThresholds] call the
    driver received, oldest first. *)

Record MockSensor := mkMock {
  touch_script : list Z;
  filtered_table : list Z;
  thresholds_log : list (Z * Z)
}.

Definition mock_touched (d : MockSensor) : Z * MockSensor :=
  match touch_script d with
  | m :: ms => (uint16 m, mkMock ms (filtered_table d) (thresholds_log d))
  | [] => (0, d)
  end.

Definition mock_filteredData (t : Z) (d : MockSensor) : Z * MockSensor :=
  (uint16 (default 0 (array_get (filtered_table d) t)), d).

Definition mock_setThresholds (touch release : Z) (d : MockSensor) : MockSensor :=
  mkMock (touch_script d) (filtered_table d) (thresholds_log d ++ [(touch, release)]).

#[export] Program Instance MockSensor_driver : Driver.Adafruit_MPR121 MockSensor := {|
  Driver.touched := mock_touched;
  Driver.filteredData := mock_filteredData;
  Driver.setThresholds := mock_setThresholds
|}.
Next Obligation.
  intros d. unfold mock_touched, is_uint16, uint16.
  destruct (touch_script d); simpl; [lia | apply Z.mod_pos_bound; lia].
Qed.
Next Obligation.
  intros t d. unfold mock_filteredData, is_uint16, uint16. simpl.
  apply Z.mod_pos_bound. lia.
Qed.

(** A freshly allocated object: twelve cache slots, nothing initialised. *)
Definition raw_storage : MPR121_Helper :=
  mkHelper 999 43690 21845 [7; 7; 7; 7; 7; 7; 7; 7; 7; 7; 7; 7].

Definition demo_table : list Z :=
  [10; 20; 30; 40; 50; 60; 70; 80; 90; 100; 110; 120].

(** A driver at address 1 that will report channel 0, then channels 0 and 1,
    and a wrapper bound to it. *)
Definition demo_mem : gmap N MockSensor := {[ 1%N := mkMock [1; 3] demo_table [] ]}.
Definition demo_helper : MPR121_Helper := mkHelper 1 0 0 (replicate 12 0).

(** A driver at address 999, where [raw_storage] happens to point. *)
Definition raw_mem : gmap N MockSensor := {[ 999%N := mkMock [] demo_table [] ]}.

(** ** Polling several times

    [touch_reads n d] is what [n] successive [touched()] calls return from a
    driver in state [d], oldest first, with the driver's final state;
    [poll n] is [n] touch refreshes in a row, as a sketch's loop makes them. *)

Fixpoint touch_reads {D} `{!Driver.Adafruit_MPR121 D}
    (n : nat) (d : D) : list Z * D :=
  match n with
  | O => ([], d)
  | S n' =>
      let '(m, d1) := Driver.touched d in
      let '(ms, d') := touch_reads n' d1 in
      (m :: ms, d')
  end.

Fixpoint poll {D} `{!Driver.Adafruit_MPR121 D}
    (n : nat) (self : MPR121_Helper) : M D MPR121_Helper :=
  match n with
  | O => ret self
  | S n' => (let* self1 := updateTouchData self in poll n' self1)%prog
  end.

(** ** Objects a program can reach

    A wrapper constructed on storage with twelve cache slots, then used
    through its methods in any order; between two calls anything may happen
    to the store (other code talks to the drivers too). *)

Inductive reachable {D} `{!Driver.Adafruit_MPR121 D} (cap : N)
  : MPR121_Helper -> gmap N D -> Prop :=
| reach_new this mem self mem' :
    length (filteredDataCache this) = 12%nat ->
    new_MPR121_Helper this cap mem = Some (self, mem') ->
    reachable cap self mem'
| reach_updateTouchData self mem self' mem' :
    reachable cap self mem ->
    updateTouchData self mem = Some (self', mem') ->
    reachable cap self' mem'
| reach_updateFilteredData self mem self' mem' :
    reachable cap self mem ->
    updateFilteredData self mem = Some (self', mem') ->
    reachable cap self' mem'
| reach_setThresholds self mem touchThreshold releaseThreshold mem' :
    reachable cap self mem ->
    setThresholds self touchThreshold releaseThreshold mem = Some (tt, mem') ->
    reachable cap self mem'
| reach_setTouchThreshold self mem threshold mem' :
    reachable cap self mem ->
    setTouchThreshold self threshold mem = Some (tt, mem') ->
    reachable cap self mem'
| reach_setReleaseThreshold self mem threshold mem' :
    reachable cap self mem ->
    setReleaseThreshold self threshold mem = Some (tt, mem') ->
    reachable cap self mem'
| reach_environment self mem mem' :
    reachable cap self mem ->
    reachable cap self mem'.

(** ** Machine integers, facts *)

Lemma uint16_is_uint16 z : is_uint16 (uint16 z).
Proof. unfold is_uint16, uint16. apply Z.mod_pos_bound. lia. Qed.

Lemma uint8_is_uint8 z : is_uint8 (uint8 z).
Proof. unfold is_uint8, uint8. apply Z.mod_pos_bound. lia. Qed.

Lemma uint8_small z : is_uint8 z -> uint8 z = z.
Proof. unfold is_uint8, uint8. intros Hz. by apply Z.mod_small. Qed.

(** ** Bit tests *)

Lemma mask_test_testbit (m e : Z) :
  0 <= e -> negb (Z.land m (Z.shiftl 1 e) =? 0) = Z.testbit m e.
Proof.
  intros He. rewrite Z.shiftl_1_l.
  destruct (Z.testbit m e) eqn:Hbit.
  - apply negb_true_iff, Z.eqb_neq. intros Hz.
    assert (Hc : Z.testbit (Z.land m (2 ^ e)) e = true).
    { by rewrite Z.land_spec, Hbit, Z.pow2_bits_true. }
    rewrite Hz, Z.bits_0 in Hc. discriminate.
  - apply negb_false_iff, Z.eqb_eq, Z.bits_inj'. intros n Hn.
    rewrite Z.land_spec, Z.bits_0, Z.pow2_bits_eqb by lia.
    destruct (Z.eqb_spec e n) as [->|]; [by rewrite Hbit | apply andb_false_r].
Qed.

Lemma isTouched_testbit self c :
  0 <= c <= 11 -> isTouched self c = Z.testbit (currentTouchData self) c.
Proof.
  intros Hc. unfold isTouched.
  destruct (Z.gtb_spec c 11); [lia | apply mask_test_testbit; lia].
Qed.

Lemma wasTouched_testbit self c :
  0 <= c <= 11 -> wasTouched self c = Z.testbit (lastTouchData self) c.
Proof.
  intros Hc. unfold wasTouched.
  destruct (Z.gtb_spec c 11); [lia | apply mask_test_testbit; lia].
Qed.

(** ** Running the programs *)

Lemma array_set_in_range (a : list Z) (k : nat) (v : Z) :
  (k < length a)%nat -> array_set a (Z.of_nat k) v = Some (<[k := v]> a).
Proof.
  intros Hk. unfold array_set.
  destruct (Z.leb_spec 0 (Z.of_nat k)); [|lia].
  destruct (Z.ltb_spec (Z.of_nat k) (Z.of_nat (length a))); [|lia].
  simpl. by rewrite Nat2Z.id.
Qed.

Lemma array_get_in_range (a : list Z) (k : nat) :
  (k < length a)%nat -> array_get a (Z.of_nat k) = a !! k.
Proof.
  intros Hk. unfold array_get.
  destruct (Z.leb_spec 0 (Z.of_nat k)); [|lia].
  destruct (Z.ltb_spec (Z.of_nat k) (Z.of_nat (length a))); [|lia].
  simpl. by rewrite Nat2Z.id.
Qed.

(** An in-range read of a cache with its twelve slots is always defined. *)
Lemma getFilteredData_defined (self : MPR121_Helper) (electrode : Z) :
  length (filteredDataCache self) = 12%nat -> 0 <= electrode ->
  is_Some (getFilteredData self electrode).
Proof.
  intros Hlen He. unfold getFilteredData.
  destruct (Z.gtb_spec electrode 11); [by eexists|].
  replace electrode with (Z.of_nat (Z.to_nat electrode)) by lia.
  rewrite array_get_in_range by lia.
  apply lookup_lt_is_Some_2. lia.
Qed.

Lemma seqZ_nat_S (k n : nat) :
  seqZ (Z.of_nat k) (Z.of_nat (S n)) = Z.of_nat k :: seqZ (Z.of_nat (S k)) (Z.of_nat n).
Proof.
  rewrite seqZ_cons by lia. f_equal. f_equal; lia.
Qed.

Lemma overwrite_slot (a : list Z) (k n : nat) (v : Z) (vs : list Z) :
  (k < length a)%nat ->
  take (S k) (<[k := v]> a) ++ vs ++ drop (S (k + n)) (<[k := v]> a)
  = take k a ++ (v :: vs) ++ drop (k + S n) a.
Proof.
  intros Hk.
  rewrite (take_S_r _ k v) by (by apply list_lookup_insert_eq).
  rewrite take_insert_ge by lia.
  rewrite drop_insert_lt by lia.
  rewrite <- app_assoc. simpl.
  by replace (S (k + n)) with (k + S n)%nat by lia.
Qed.

Lemma for_each_invariant {D S} (P : S -> Prop) (body : Z -> S -> M D S) :
  (forall i s mem s' mem', body i s mem = Some (s', mem') -> P s -> P s') ->
  forall indices s mem s' mem',
    for_each indices body s mem = Some (s', mem') -> P s -> P s'.
Proof.
  intros Hbody indices.
  induction indices as [|i rest IH]; intros s mem s' mem' Hrun Hs.
  - injection Hrun as <- _. done.
  - simpl in Hrun. unfold bind in Hrun.
    destruct (body i s mem) as [[s1 mem1]|] eqn:Hstep; [|done].
    eapply IH; [done|]. by eapply Hbody.
Qed.

Section Runs.

Context {D : Type} `{!Driver.Adafruit_MPR121 D}.

Implicit Types (self : MPR121_Helper) (mem : gmap N D) (d : D).

Lemma call_run {A} (p : N) (method : D -> A * D) mem d :
  mem !! p = Some d ->
  call p method mem = Some ((method d).1, <[p := (method d).2]> mem).
Proof. intros Hp. unfold call. rewrite Hp. by destruct (method d). Qed.

Lemma updateTouchData_run self mem d :
  mem !! sensor self = Some d ->
  updateTouchData self mem
  = Some (mkHelper (sensor self) (Driver.touched d).1 (currentTouchData self)
                   (filteredDataCache self),
          <[sensor self := (Driver.touched d).2]> mem).
Proof.
  intros Hp. unfold updateTouchData, bind. simpl.
  by rewrite (call_run _ _ _ d).
Qed.

(** The constructor's loop, started at slot [k] with [n] slots to go. *)
Lemma zero_fill_run (n : nat) : forall (k : nat) self mem,
  (k + n <= length (filteredDataCache self))%nat ->
  for_each (seqZ (Z.of_nat k) (Z.of_nat n))
           (fun i s => store_filteredDataCache i 0 s) self mem
  = Some (set_filteredDataCache
            (take k (filteredDataCache self) ++ replicate n 0
               ++ drop (k + n) (filteredDataCache self)) self, mem).
Proof.
  induction n as [|n IH]; intros k self mem Hlen.
  - simpl. rewrite Nat.add_0_r, take_drop. by destruct self.
  - rewrite seqZ_nat_S. simpl. unfold bind at 1.
    unfold store_filteredDataCache at 1. unfold bind, lift, ret.
    rewrite array_set_in_range by lia.
    rewrite IH by (simpl; rewrite length_insert; lia).
    simpl. rewrite overwrite_slot by lia. done.
Qed.

(** The refresh loop, started at slot [k] with [n] slots to go. *)
Lemma refresh_run (n : nat) : forall (k : nat) self mem d,
  mem !! sensor self = Some d ->
  (k + n <= length (filteredDataCache self))%nat ->
  for_each (seqZ (Z.of_nat k) (Z.of_nat n))
           (fun i s =>
              (let* v := call (sensor s) (Driver.filteredData i) in
               store_filteredDataCache i v s)%prog) self mem
  = Some (set_filteredDataCache
            (take k (filteredDataCache self)
               ++ (read_channels n (Z.of_nat k) d).1
               ++ drop (k + n) (filteredDataCache self)) self,
          <[sensor self := (read_channels n (Z.of_nat k) d).2]> mem).
Proof.
  induction n as [|n IH]; intros k self mem d Hp Hlen.
  - simpl. rewrite Nat.add_0_r, take_drop, insert_id by done. by destruct self.
  - rewrite seqZ_nat_S. simpl. unfold bind at 1. unfold bind at 1.
    rewrite (call_run _ _ _ d) by done.
    unfold store_filteredDataCache at 1. unfold bind, lift, ret.
    rewrite array_set_in_range by lia.
    destruct (Driver.filteredData (Z.of_nat k) d) as [v d1] eqn:Hv. simpl.
    rewrite (IH (S k) _ _ d1);
      [| by simpl; rewrite lookup_insert_eq
       | simpl; rewrite length_insert; lia].
    replace (Z.of_nat k + 1) with (Z.of_nat (S k)) by lia.
    destruct (read_channels n (Z.of_nat (S k)) d1) as [vs d'] eqn:Hvs.
    simpl. rewrite insert_insert_eq, overwrite_slot by lia. done.
Qed.

End Runs.

(** ** Counting by scanning *)

Lemma popcount_nonneg z : 0 <= popcount z.
Proof.
  destruct z as [|p|p]; simpl; try lia.
  induction p; simpl; lia.
Qed.

Lemma popcount_bit_double (b : bool) (y : Z) :
  0 <= y -> popcount (Z.b2z b + 2 * y) = Z.b2z b + popcount y.
Proof. intros Hy. destruct y as [|p|p]; [| |lia]; by destruct b. Qed.

Lemma popcount_window (m k : Z) (n : nat) :
  0 <= k ->
  popcount ((m / 2 ^ k) mod 2 ^ Z.of_nat (S n))
  = Z.b2z (Z.testbit m k) + popcount ((m / 2 ^ (k + 1)) mod 2 ^ Z.of_nat n).
Proof.
  intros Hk.
  replace (2 ^ Z.of_nat (S n)) with (2 * 2 ^ Z.of_nat n)
    by (rewrite Nat2Z.inj_succ, Z.pow_succ_r; lia).
  rewrite Z.rem_mul_r by lia.
  rewrite <- Z.testbit_spec' by lia.
  rewrite Z.div_div by lia.
  replace (2 ^ k * 2) with (2 ^ (k + 1)) by (rewrite Z.pow_add_r; lia).
  apply popcount_bit_double.
  apply Z.mod_pos_bound. lia.
Qed.

(** A [uint8_t] counter that scans [n] channels from [k] on never wraps as
    long as it starts low enough, and ends up counting the 1 bits scanned. *)
Lemma scan_popcount (f : Z -> bool) (m : Z) (n : nat) : forall (k acc : Z),
  0 <= k -> 0 <= acc -> acc + Z.of_nat n < 256 ->
  (forall i, k <= i < k + Z.of_nat n -> f i = Z.testbit m i) ->
  foldl (fun count i => if f i then uint8 (count + 1) else count)
        acc (seqZ k (Z.of_nat n))
  = acc + popcount ((m / 2 ^ k) mod 2 ^ Z.of_nat n).
Proof.
  induction n as [|n IH]; intros k acc Hk Hacc Hroom Hf.
  - simpl. rewrite Z.mod_1_r. simpl. lia.
  - rewrite seqZ_cons by lia. simpl.
    replace (Z.pred (Z.of_nat (S n))) with (Z.of_nat n) by lia.
    rewrite popcount_window by lia.
    rewrite (Hf k) by lia.
    replace (Z.succ k) with (k + 1) by lia.
    destruct (Z.testbit m k); simpl.
    + rewrite uint8_small by (unfold is_uint8; lia).
      rewrite IH; [lia | lia | lia | lia | intros i Hi; apply Hf; lia].
    + rewrite IH; [lia | lia | lia | lia | intros i Hi; apply Hf; lia].
Qed.

(** ** The invariant is established and kept *)

Section Invariant.

Context {D : Type} `{!Driver.Adafruit_MPR121 D}.

Implicit Types (self : MPR121_Helper) (mem : gmap N D) (d : D).

Lemma read_channels_length (n : nat) : forall i d,
  length (read_channels n i d).1 = n.
Proof.
  induction n as [|n IH]; intros i d; simpl; [done|].
  destruct (Driver.filteredData i d) as [v d1].
  specialize (IH (i + 1) d1).
  destruct (read_channels n (i + 1) d1) as [vs d']. simpl in *. lia.
Qed.

Lemma read_channels_uint16 (n : nat) : forall i d,
  Forall is_uint16 (read_channels n i d).1.
Proof.
  induction n as [|n IH]; intros i d; simpl; [constructor|].
  pose proof (Driver.filteredData_uint16 i d) as Hv.
  destruct (Driver.filteredData i d) as [v d1].
  specialize (IH (i + 1) d1).
  destruct (read_channels n (i + 1) d1) as [vs d']. simpl in *.
  by constructor.
Qed.

Lemma new_MPR121_Helper_run this cap mem :
  length (filteredDataCache this) = 12%nat ->
  new_MPR121_Helper this cap mem = Some (mkHelper cap 0 0 (replicate 12 0), mem).
Proof.
  intros Hlen. unfold new_MPR121_Helper.
  rewrite (zero_fill_run 12 0) by (simpl; lia).
  simpl. rewrite drop_ge by lia. done.
Qed.

Lemma updateFilteredData_run self mem d :
  mem !! sensor self = Some d ->
  length (filteredDataCache self) = 12%nat ->
  updateFilteredData self mem
  = Some (set_filteredDataCache (read_channels 12 0 d).1 self,
          <[sensor self := (read_channels 12 0 d).2]> mem).
Proof.
  intros Hp Hlen. unfold updateFilteredData.
  rewrite (refresh_run 12 0 _ _ d) by (done || lia).
  rewrite drop_ge by lia. simpl take. by rewrite app_nil_r.
Qed.

Lemma new_MPR121_Helper_wf this cap mem self mem' :
  length (filteredDataCache this) = 12%nat ->
  new_MPR121_Helper this cap mem = Some (self, mem') -> wf self.
Proof.
  intros Hlen Hrun. rewrite new_MPR121_Helper_run in Hrun by done.
  injection Hrun as <- <-.
  split; simpl; unfold is_uint16; try lia; try done.
  repeat constructor; lia.
Qed.

Lemma updateTouchData_wf self mem self' mem' :
  wf self -> updateTouchData self mem = Some (self', mem') -> wf self'.
Proof.
  intros [Hc Hl Hn Ha] Hrun. unfold updateTouchData, bind, call in Hrun.
  simpl in Hrun. destruct (mem !! sensor self) as [d|]; [|done].
  pose proof (Driver.touched_uint16 d) as Hm.
  destruct (Driver.touched d) as [m d']. injection Hrun as <- <-.
  by split.
Qed.

Lemma updateFilteredData_wf self mem self' mem' :
  wf self -> updateFilteredData self mem = Some (self', mem') -> wf self'.
Proof.
  intros [Hc Hl Hn Ha] Hrun.
  destruct (mem !! sensor self) as [d|] eqn:Hp.
  - rewrite (updateFilteredData_run _ _ d) in Hrun by done.
    apply (inj Some), pair_equal_spec in Hrun as [<- _].
    split; cbn -[read_channels]; try done.
    + apply read_channels_length.
    + apply read_channels_uint16.
  - unfold updateFilteredData in Hrun. rewrite seqZ_cons in Hrun by lia.
    simpl in Hrun. unfold bind at 1, bind at 1, call in Hrun.
    by rewrite Hp in Hrun.
Qed.

End Invariant.

(** ** Properties of the wrapper *)

Section Claims.

Context {D : Type} `{!Driver.Adafruit_MPR121 D}.

Implicit Types (self : MPR121_Helper) (mem : gmap N D) (d : D).

(** C1. Two touch refreshes in a row, the driver answering [M1] and then
    [M2]: the calls succeed, and afterwards, for every channel 0..11,
    [wasTouched] is bit [c] of [M1] and [isTouched] is bit [c] of [M2]. *)
Theorem two_generation_masks self mem d0 d1 d2 (M1 M2 : Z) :
  mem !! sensor self = Some d0 ->
  Driver.touched d0 = (M1, d1) ->
  Driver.touched d1 = (M2, d2) ->
  exists self2,
    (let* self1 := updateTouchData self in updateTouchData self1)%prog mem
      = Some (self2, <[sensor self := d2]> mem)
    /\ forall c, 0 <= c <= 11 ->
         wasTouched self2 c = Z.testbit M1 c /\ isTouched self2 c = Z.testbit M2 c.
Proof.
  intros Hp H1 H2. eexists. split.
  - unfold bind. rewrite (updateTouchData_run _ _ d0), H1 by done. simpl.
    rewrite (updateTouchData_run _ _ d1), H2 by (by simpl; rewrite lookup_insert_eq).
    simpl. by rewrite insert_insert_eq.
  - intros c Hc. by rewrite wasTouched_testbit, isTouched_testbit.
Qed.

(** C3. After a touch refresh in which the driver answers [m], [isTouched]
    on a channel 0..11 is true exactly when bit [channel] of [m] is set;
    [m] is then the value of [currentTouchData]. *)
Theorem isTouched_latest_mask self mem d d' (m channel : Z) :
  mem !! sensor self = Some d ->
  Driver.touched d = (m, d') ->
  0 <= channel <= 11 ->
  exists self',
    updateTouchData self mem = Some (self', <[sensor self := d']> mem)
    /\ currentTouchData self' = m
    /\ (isTouched self' channel = true <-> Z.testbit m channel = true).
Proof.
  intros Hp Hm Hc. eexists. split; [|split].
  - by rewrite (updateTouchData_run _ _ d), Hm.
  - done.
  - by rewrite isTouched_testbit.
Qed.

(** C6. [setTouchThreshold level] hands [(level, 20)] to the driver's
    [setThresholds] and [setReleaseThreshold level] hands it [(40, level)]:
    each is the two-threshold setter with the other value fixed. *)
Theorem single_threshold_setters self mem d (level : Z) :
  mem !! sensor self = Some d ->
  setTouchThreshold self level mem
    = Some (tt, <[sensor self := Driver.setThresholds level 20 d]> mem)
  /\ setReleaseThreshold self level mem
    = Some (tt, <[sensor self := Driver.setThresholds 40 level d]> mem)
  /\ setTouchThreshold self level mem = setThresholds self level 20 mem
  /\ setReleaseThreshold self level mem = setThresholds self 40 level mem.
Proof.
  intros Hp. unfold setTouchThreshold, setReleaseThreshold, setThresholds, call_void.
  by rewrite !(call_run _ _ _ d).
Qed.

(** C7. A proximity refresh during which the driver answers [vs] to the
    reads of channels 0, 1, ..., 11 succeeds and leaves exactly [vs] in the
    cache, whatever the cache held before; [getFilteredData c] is then the
    reading of channel [c], for every [c] in 0..11. *)
Theorem updateFilteredData_caches_readings self mem d d' (vs : list Z) :
  mem !! sensor self = Some d ->
  length (filteredDataCache self) = 12%nat ->
  read_channels 12 0 d = (vs, d') ->
  exists self',
    updateFilteredData self mem = Some (self', <[sensor self := d']> mem)
    /\ filteredDataCache self' = vs
    /\ forall c, 0 <= c <= 11 ->
         exists v, vs !! Z.to_nat c = Some v /\ getFilteredData self' c = Some v.
Proof.
  intros Hp Hlen Hvs. eexists. split; [|split].
  - by rewrite (updateFilteredData_run _ _ d), Hvs.
  - done.
  - intros c Hc.
    assert (Hn : length vs = 12%nat).
    { pose proof (read_channels_length 12 0 d) as Hl. by rewrite Hvs in Hl. }
    destruct (lookup_lt_is_Some_2 vs (Z.to_nat c)) as [v Hv]; [lia|].
    exists v. split; [done|].
    unfold getFilteredData. destruct (Z.gtb_spec c 11); [lia|].
    simpl. replace c with (Z.of_nat (Z.to_nat c)) by lia.
    by rewrite array_get_in_range by lia.
Qed.

(** C9. The two refreshes are independent, from every starting object and
    store and whatever the driver answers: a proximity refresh leaves both
    masks as they were, a touch refresh leaves the cache as it was; and
    both refreshes do complete when the driver is there and the cache has
    its twelve slots. *)
Theorem refreshes_independent self mem :
  (forall selfF memF,
      updateFilteredData self mem = Some (selfF, memF) ->
      currentTouchData selfF = currentTouchData self
      /\ lastTouchData selfF = lastTouchData self)
  /\ (forall selfT memT,
      updateTouchData self mem = Some (selfT, memT) ->
      filteredDataCache selfT = filteredDataCache self)
  /\ (forall d,
      mem !! sensor self = Some d ->
      length (filteredDataCache self) = 12%nat ->
      is_Some (updateFilteredData self mem) /\ is_Some (updateTouchData self mem)).
Proof.
  split; [|split].
  - intros selfF memF Hrun.
    apply (for_each_invariant
             (fun s => currentTouchData s = currentTouchData self
                       /\ lastTouchData s = lastTouchData self)) in Hrun;
      [done | | done].
    clear. intros i s m s' m' Hbody Hs.
    unfold bind, call, store_filteredDataCache, lift, ret in Hbody.
    destruct (m !! sensor s) as [d|]; [|done].
    destruct (Driver.filteredData i d) as [v d1].
    unfold bind in Hbody.
    destruct (array_set (filteredDataCache s) i v); [|done].
    by injection Hbody as <- _.
  - intros selfT memT Hrun. unfold updateTouchData, bind, call in Hrun.
    simpl in Hrun. destruct (mem !! sensor self) as [d|]; [|done].
    destruct (Driver.touched d) as [m d']. by injection Hrun as <- _.
  - intros d Hp Hlen. split.
    + rewrite (updateFilteredData_run _ _ d) by done. by eexists.
    + rewrite (updateTouchData_run _ _ d) by done. by eexists.
Qed.

End Claims.

(** C2. For an electrode number above 11 the four mask queries answer
    [false] and [getFilteredData] answers 0, on every object: the answer
    does not depend on the masks, and the read is defined even for an object
    whose cache has no slot at all, so the array is not indexed. *)
Theorem out_of_range_defaults (self : MPR121_Helper) (electrode : Z) :
  electrode > 11 ->
  getTouchData self electrode = false
  /\ isTouched self electrode = false
  /\ wasTouched self electrode = false
  /\ isNewTouch self electrode = false
  /\ isNewRelease self electrode = false
  /\ getFilteredData self electrode = Some 0.
Proof.
  intros He.
  unfold isNewTouch, isNewRelease, getTouchData, isTouched, wasTouched,
    getFilteredData.
  by destruct (Z.gtb_spec electrode 11); [|lia].
Qed.

(** C4. [getNumTouches] is the number of 1 bits among the low 12 bits of
    [currentTouchData], on every object. *)
Theorem getNumTouches_popcount (self : MPR121_Helper) :
  getNumTouches self = popcount (Z.land (currentTouchData self) 4095).
Proof.
  unfold getNumTouches.
  rewrite (scan_popcount _ (currentTouchData self) 12 0 0);
    [| lia | lia | lia | intros i Hi; apply isTouched_testbit; lia].
  change 4095 with (Z.ones 12). rewrite Z.land_ones by lia.
  by rewrite Z.div_1_r.
Qed.

(** C5. On every object and for every electrode number, [isNewTouch] and
    [isNewRelease] are never both true; [isNewTouch] is [isTouched] and not
    [wasTouched], [isNewRelease] is [wasTouched] and not [isTouched]. *)
Theorem edges_exclusive (self : MPR121_Helper) (c : Z) :
  isNewTouch self c && isNewRelease self c = false
  /\ (isNewTouch self c = true
      <-> isTouched self c = true /\ wasTouched self c = false)
  /\ (isNewRelease self c = true
      <-> isTouched self c = false /\ wasTouched self c = true).
Proof.
  unfold isNewTouch, isNewRelease.
  destruct (isTouched self c), (wasTouched self c); simpl; intuition congruence.
Qed.

(** C8. Construction succeeds on any storage with twelve cache slots, for
    any driver address and any store, even one holding no driver at that
    address; it leaves the store as it was, binds [sensor] to the address,
    and zeroes the masks and the twelve cache entries, so that every query
    on a channel 0..11 answers [false] or 0 and no channel counts as touched. *)
Theorem constructor_zero_state {D : Type}
    (this : MPR121_Helper) (cap : N) (mem : gmap N D) :
  length (filteredDataCache this) = 12%nat ->
  exists self,
    new_MPR121_Helper this cap mem = Some (self, mem)
    /\ sensor self = cap
    /\ currentTouchData self = 0
    /\ lastTouchData self = 0
    /\ filteredDataCache self = replicate 12 0
    /\ (forall c, 0 <= c <= 11 ->
          isTouched self c = false /\ wasTouched self c = false
          /\ getFilteredData self c = Some 0)
    /\ getNumTouches self = 0.
Proof.
  intros Hlen. eexists. split; [by apply new_MPR121_Helper_run|].
  do 4 (split; [done|]). split; [|done].
  intros c Hc. rewrite isTouched_testbit, wasTouched_testbit by done.
  cbn [currentTouchData lastTouchData]. rewrite Z.bits_0.
  do 2 (split; [done|]).
  assert (Hcases : c = 0 \/ c = 1 \/ c = 2 \/ c = 3 \/ c = 4 \/ c = 5 \/ c = 6
                   \/ c = 7 \/ c = 8 \/ c = 9 \/ c = 10 \/ c = 11) by lia.
  by repeat destruct Hcases as [->|Hcases]; [..|subst c].
Qed.

(** C10. [getTouchData] and [isTouched] answer alike on every object and
    for every electrode number. *)
Theorem getTouchData_is_isTouched (self : MPR121_Helper) (electrode : Z) :
  getTouchData self electrode = isTouched self electrode.
Proof. reflexivity. Qed.

(** ** Concrete runs against the scripted driver *)

Example scenario_touch_then_second_channel :
  exists self1 mem1 self2 mem2,
    updateTouchData demo_helper demo_mem = Some (self1, mem1)
    /\ isTouched self1 0 = true /\ getNumTouches self1 = 1
    /\ updateTouchData self1 mem1 = Some (self2, mem2)
    /\ isNewTouch self2 1 = true /\ isNewTouch self2 0 = false
    /\ isNewRelease self2 0 = false /\ getNumTouches self2 = 2.
Proof. do 4 eexists. repeat split; vm_compute; reflexivity. Qed.

Example scenario_proximity_sixth_value :
  exists self1 mem1,
    updateFilteredData demo_helper demo_mem = Some (self1, mem1)
    /\ getFilteredData self1 5 = Some 60
    /\ filteredDataCache self1 = [10; 20; 30; 40; 50; 60; 70; 80; 90; 100; 110; 120].
Proof. do 2 eexists. repeat split; vm_compute; reflexivity. Qed.

Example scenario_threshold_clobbered :
  exists mem1 mem2 d,
    setThresholds demo_helper 60 30 demo_mem = Some (tt, mem1)
    /\ setTouchThreshold demo_helper 50 mem1 = Some (tt, mem2)
    /\ mem2 !! sensor demo_helper = Some d
    /\ thresholds_log d = [(60, 30); (50, 20)].
Proof. do 3 eexists. repeat split; vm_compute; reflexivity. Qed.

Example scenario_wrapped_argument :
  isTouched (mkHelper 1 1 0 (replicate 12 0)) (uint8 256) = true
  /\ isTouched (mkHelper 1 65535 0 (replicate 12 0)) 255 = false.
Proof. split; reflexivity. Qed.

Lemma two_generation_masks_witness :
  exists self2,
    (let* self1 := updateTouchData demo_helper in updateTouchData self1)%prog demo_mem
      = Some (self2, <[1%N := mkMock [] demo_table []]> demo_mem)
    /\ forall c, 0 <= c <= 11 ->
         wasTouched self2 c = Z.testbit 1 c /\ isTouched self2 c = Z.testbit 3 c.
Proof.
  apply (two_generation_masks demo_helper demo_mem
           (mkMock [1; 3] demo_table []) (mkMock [3] demo_table [])
           (mkMock [] demo_table []) 1 3); reflexivity.
Defined.

Lemma out_of_range_defaults_witness :
  getTouchData (mkHelper 1 65535 65535 []) 255 = false
  /\ isTouched (mkHelper 1 65535 65535 []) 255 = false
  /\ wasTouched (mkHelper 1 65535 65535 []) 255 = false
  /\ isNewTouch (mkHelper 1 65535 65535 []) 255 = false
  /\ isNewRelease (mkHelper 1 65535 65535 []) 255 = false
  /\ getFilteredData (mkHelper 1 65535 65535 []) 255 = Some 0.
Proof. apply (out_of_range_defaults (mkHelper 1 65535 65535 []) 255). reflexivity. Defined.

Lemma isTouched_latest_mask_witness :
  exists self',
    updateTouchData demo_helper demo_mem
      = Some (self', <[1%N := mkMock [3] demo_table []]> demo_mem)
    /\ currentTouchData self' = 1
    /\ (isTouched self' 0 = true <-> Z.testbit 1 0 = true).
Proof.
  apply (isTouched_latest_mask demo_helper demo_mem
           (mkMock [1; 3] demo_table []) (mkMock [3] demo_table []) 1 0);
    [reflexivity | reflexivity | lia].
Defined.

Lemma single_threshold_setters_witness :
  setTouchThreshold demo_helper 50 demo_mem
    = Some (tt, <[1%N := mkMock [1; 3] demo_table [(50, 20)]]> demo_mem)
  /\ setReleaseThreshold demo_helper 50 demo_mem
    = Some (tt, <[1%N := mkMock [1; 3] demo_table [(40, 50)]]> demo_mem)
  /\ setTouchThreshold demo_helper 50 demo_mem = setThresholds demo_helper 50 20 demo_mem
  /\ setReleaseThreshold demo_helper 50 demo_mem = setThresholds demo_helper 40 50 demo_mem.
Proof.
  refine (single_threshold_setters demo_helper demo_mem
            (mkMock [1; 3] demo_table []) 50 _).
  reflexivity.
Defined.

Lemma updateFilteredData_caches_readings_witness :
  exists self',
    updateFilteredData raw_storage raw_mem
      = Some (self', <[999%N := mkMock [] demo_table []]> raw_mem)
    /\ filteredDataCache self' = demo_table
    /\ forall c, 0 <= c <= 11 ->
         exists v, demo_table !! Z.to_nat c = Some v /\ getFilteredData self' c = Some v.
Proof.
  apply (updateFilteredData_caches_readings raw_storage raw_mem
           (mkMock [] demo_table []) (mkMock [] demo_table []) demo_table);
    reflexivity.
Defined.

Lemma refreshes_independent_witness :
  is_Some (updateFilteredData demo_helper demo_mem)
  /\ is_Some (updateTouchData demo_helper demo_mem).
Proof.
  apply (proj2 (proj2 (refreshes_independent demo_helper demo_mem))
           (mkMock [1; 3] demo_table [])); reflexivity.
Defined.

Lemma constructor_zero_state_witness :
  exists self,
    new_MPR121_Helper raw_storage 5 (∅ : gmap N MockSensor) = Some (self, ∅)
    /\ sensor self = 5%N
    /\ currentTouchData self = 0
    /\ lastTouchData self = 0
    /\ filteredDataCache self = replicate 12 0
    /\ (forall c, 0 <= c <= 11 ->
          isTouched self c = false /\ wasTouched self c = false
          /\ getFilteredData self c = Some 0)
    /\ getNumTouches self = 0.
Proof. apply (constructor_zero_state raw_storage 5 ∅). reflexivity. Defined.


(** ** Further properties: the touch counter *)

Lemma scan_bounds (f : Z -> bool) (l : list Z) : forall acc,
  0 <= acc -> acc + Z.of_nat (length l) < 256 ->
  acc <= foldl (fun count i => if f i then uint8 (count + 1) else count) acc l
      <= acc + Z.of_nat (length l).
Proof.
  induction l as [|i l IH]; intros acc Hacc Hroom; simpl in *; [lia|].
  destruct (f i).
  - rewrite uint8_small by (unfold is_uint8; lia).
    specialize (IH (acc + 1)). lia.
  - specialize (IH acc). lia.
Qed.

Lemma scan_unchanged_iff (f : Z -> bool) (l : list Z) : forall acc,
  0 <= acc -> acc + Z.of_nat (length l) < 256 ->
  foldl (fun count i => if f i then uint8 (count + 1) else count) acc l = acc
  <-> Forall (fun i => f i = false) l.
Proof.
  induction l as [|i l IH]; intros acc Hacc Hroom; simpl in *.
  - split; [constructor | done].
  - rewrite Forall_cons. destruct (f i) eqn:Hf.
    + rewrite uint8_small by (unfold is_uint8; lia).
      pose proof (scan_bounds f l (acc + 1)) as Hb.
      split; [lia | intros [? _]; done].
    + rewrite IH by lia. tauto.
Qed.

Lemma scan_full_iff (f : Z -> bool) (l : list Z) : forall acc,
  0 <= acc -> acc + Z.of_nat (length l) < 256 ->
  foldl (fun count i => if f i then uint8 (count + 1) else count) acc l
    = acc + Z.of_nat (length l)
  <-> Forall (fun i => f i = true) l.
Proof.
  induction l as [|i l IH]; intros acc Hacc Hroom; simpl in *.
  - split; [constructor | lia].
  - rewrite Forall_cons. destruct (f i) eqn:Hf.
    + rewrite uint8_small by (unfold is_uint8; lia).
      specialize (IH (acc + 1)).
      replace (acc + 1 + Z.of_nat (length l))
        with (acc + Z.pos (Pos.of_succ_nat (length l))) in IH by lia.
      rewrite IH by lia. tauto.
    + pose proof (scan_bounds f l acc) as Hb.
      split; [lia | intros [? _]; done].
Qed.

Lemma scan_ext (f g : Z -> bool) (l : list Z) : forall acc,
  (forall i, f i = g i) ->
  foldl (fun count i => if f i then uint8 (count + 1) else count) acc l
  = foldl (fun count i => if g i then uint8 (count + 1) else count) acc l.
Proof.
  induction l as [|i l IH]; intros acc Hfg; simpl; [done|].
  rewrite Hfg. by apply IH.
Qed.

(** X1. The number of touches lies between 0 and 12 on every object: the
    [uint8_t] counter cannot wrap. *)
Theorem getNumTouches_bounds (self : MPR121_Helper) :
  0 <= getNumTouches self <= 12.
Proof.
  unfold getNumTouches.
  pose proof (scan_bounds (isTouched self) (seqZ 0 12) 0) as Hb.
  rewrite length_seqZ in Hb. lia.
Qed.

(** X2. The number of touches is 0 exactly when [isTouched] is false for
    every electrode number. *)
Theorem getNumTouches_zero_iff (self : MPR121_Helper) :
  getNumTouches self = 0 <-> forall electrode, isTouched self electrode = false.
Proof.
  unfold getNumTouches.
  rewrite scan_unchanged_iff by (rewrite ?length_seqZ; lia).
  rewrite Forall_seqZ. split.
  - intros Hall e. destruct (Z.gtb_spec e 11) as [Hhigh|Hlow].
    + unfold isTouched. by destruct (Z.gtb_spec e 11); [|lia].
    + destruct (Z.ltb_spec e 0) as [Hneg|Hpos]; [|apply Hall; lia].
      unfold isTouched. destruct (Z.gtb_spec e 11); [done|].
      rewrite Z.shiftl_1_l, Z.pow_neg_r, Z.land_0_r by lia. done.
  - intros Hall e _. apply Hall.
Qed.

(** X3. The number of touches is 12 exactly when [isTouched] is true for
    each of the channels 0..11. *)
Theorem getNumTouches_twelve_iff (self : MPR121_Helper) :
  getNumTouches self = 12
  <-> forall channel, 0 <= channel <= 11 -> isTouched self channel = true.
Proof.
  unfold getNumTouches.
  pose proof (scan_full_iff (isTouched self) (seqZ 0 12) 0) as Hfull.
  rewrite length_seqZ in Hfull. simpl in Hfull.
  rewrite Hfull by lia. rewrite Forall_seqZ.
  split; intros Hall c Hc; apply Hall; lia.
Qed.

(** ** Further properties: masks and edges *)

Lemma mask_test_low_bits (m e : Z) :
  e <= 11 ->
  negb (Z.land (Z.land m 4095) (Z.shiftl 1 e) =? 0)
  = negb (Z.land m (Z.shiftl 1 e) =? 0).
Proof.
  intros He. destruct (Z.ltb_spec e 0) as [Hneg|Hpos].
  - by rewrite Z.shiftl_1_l, Z.pow_neg_r, !Z.land_0_r by lia.
  - rewrite !mask_test_testbit by lia.
    change 4095 with (Z.ones 12).
    rewrite Z.land_spec, Z.ones_spec_low by lia. apply andb_true_r.
Qed.

(** X4. Bits 12 to 15 of the two masks are never looked at: every mask query
    and the touch count answer the same once those bits are cleared. *)
Theorem high_bits_ignored (self : MPR121_Helper) (electrode : Z) :
  isTouched (set_currentTouchData (Z.land (currentTouchData self) 4095) self)
            electrode = isTouched self electrode
  /\ wasTouched (set_lastTouchData (Z.land (lastTouchData self) 4095) self)
                electrode = wasTouched self electrode
  /\ getNumTouches (set_currentTouchData (Z.land (currentTouchData self) 4095) self)
     = getNumTouches self.
Proof.
  assert (Hcur : forall e,
    isTouched (set_currentTouchData (Z.land (currentTouchData self) 4095) self) e
    = isTouched self e).
  { intros e. unfold isTouched. simpl.
    destruct (Z.gtb_spec e 11); [done | apply mask_test_low_bits; lia]. }
  split; [apply Hcur | split].
  - unfold wasTouched. simpl.
    destruct (Z.gtb_spec electrode 11); [done | apply mask_test_low_bits; lia].
  - unfold getNumTouches. by apply scan_ext.
Qed.

Section Generations.

Context {D : Type} `{!Driver.Adafruit_MPR121 D}.

Implicit Types (self : MPR121_Helper) (mem : gmap N D) (d : D).

(** X5. A touch refresh moves the current generation into the previous one:
    afterwards [wasTouched] answers, for every electrode number, what
    [isTouched] answered before the refresh. *)
Theorem updateTouchData_shifts_generation self mem d :
  mem !! sensor self = Some d ->
  exists self' mem',
    updateTouchData self mem = Some (self', mem')
    /\ lastTouchData self' = currentTouchData self
    /\ forall electrode, wasTouched self' electrode = isTouched self electrode.
Proof.
  intros Hp. do 2 eexists. split; [by apply updateTouchData_run|].
  split; [done|]. intros e. reflexivity.
Qed.

(** X6. Refreshing while the driver reports, on channels 0..11, the mask the
    wrapper already holds wipes every edge: afterwards neither [isNewTouch]
    nor [isNewRelease] is true for any electrode number. *)
Theorem repeated_mask_no_edges self mem d d' (m : Z) :
  mem !! sensor self = Some d ->
  Driver.touched d = (m, d') ->
  Z.land m 4095 = Z.land (currentTouchData self) 4095 ->
  exists self',
    updateTouchData self mem = Some (self', <[sensor self := d']> mem)
    /\ forall electrode,
         isNewTouch self' electrode = false /\ isNewRelease self' electrode = false.
Proof.
  intros Hp Hm Hsame. eexists. split.
  - by rewrite (updateTouchData_run _ _ d), Hm.
  - intros e.
    assert (Heq : isTouched
                    (mkHelper (sensor self) m (currentTouchData self)
                       (filteredDataCache self)) e
                  = wasTouched
                      (mkHelper (sensor self) m (currentTouchData self)
                         (filteredDataCache self)) e).
    { unfold isTouched, wasTouched. simpl.
      destruct (Z.gtb_spec e 11); [done|].
      rewrite <- (mask_test_low_bits m), <- (mask_test_low_bits (currentTouchData self))
        by lia.
      by rewrite Hsame. }
    unfold isNewTouch, isNewRelease. simpl. rewrite Heq.
    split; [apply andb_negb_r | apply andb_negb_l].
Qed.

(** X7. The first touch refresh after construction reports every touched
    channel as a new touch and no release, for every electrode number. *)
Theorem first_refresh_reports_new_touches this (cap : N) mem d d' (m : Z) :
  length (filteredDataCache this) = 12%nat ->
  mem !! cap = Some d ->
  Driver.touched d = (m, d') ->
  exists self',
    (let* self := new_MPR121_Helper this cap in updateTouchData self)%prog mem
      = Some (self', <[cap := d']> mem)
    /\ forall electrode,
         isNewTouch self' electrode = isTouched self' electrode
         /\ isNewRelease self' electrode = false.
Proof.
  intros Hlen Hp Hm. eexists. split.
  - unfold bind. rewrite new_MPR121_Helper_run by done.
    by rewrite (updateTouchData_run _ _ d), Hm.
  - intros e.
    assert (Hwas : wasTouched (mkHelper cap m 0 (replicate 12 0)) e = false).
    { unfold wasTouched. simpl. by destruct (e >? 11). }
    unfold isNewTouch, isNewRelease. simpl in *. rewrite Hwas. simpl.
    split; [apply andb_true_r | apply andb_false_r].
Qed.

Lemma touch_reads_S (n : nat) d :
  touch_reads (S n) d
  = ((Driver.touched d).1 :: (touch_reads n (Driver.touched d).2).1,
     (touch_reads n (Driver.touched d).2).2).
Proof.
  simpl. destruct (Driver.touched d) as [m d1]. simpl.
  by destruct (touch_reads n d1).
Qed.

(** X8. After any number of touch refreshes in a row the wrapper holds the
    two most recent entries of the history made of the driver's answers
    (newest first) followed by the two masks it started with; the cache and
    the driver binding are as before. *)
Theorem poll_keeps_last_two (n : nat) : forall self mem d,
  mem !! sensor self = Some d ->
  exists self',
    poll n self mem = Some (self', <[sensor self := (touch_reads n d).2]> mem)
    /\ (reverse (touch_reads n d).1
          ++ [currentTouchData self; lastTouchData self]) !! 0%nat
       = Some (currentTouchData self')
    /\ (reverse (touch_reads n d).1
          ++ [currentTouchData self; lastTouchData self]) !! 1%nat
       = Some (lastTouchData self')
    /\ filteredDataCache self' = filteredDataCache self
    /\ sensor self' = sensor self.
Proof.
  induction n as [|n IH]; intros self mem d Hp.
  - exists self. simpl. unfold ret. by rewrite insert_id.
  - rewrite touch_reads_S. cbn [poll fst snd]. unfold bind.
    rewrite (updateTouchData_run _ _ d) by done.
    destruct (Driver.touched d) as [m d1]. cbn [fst snd].
    destruct (IH (mkHelper (sensor self) m (currentTouchData self)
                    (filteredDataCache self))
                 (<[sensor self := d1]> mem) d1) as (self' & Hrun & H0 & H1 & Hc & Hs);
      [by simpl; rewrite lookup_insert_eq|].
    cbn [sensor currentTouchData lastTouchData filteredDataCache] in *.
    exists self'. rewrite Hrun, insert_insert_eq.
    split; [done|].
    rewrite reverse_cons, <- app_assoc.
    change ([m] ++ [currentTouchData self; lastTouchData self])
      with ([m; currentTouchData self] ++ [lastTouchData self]).
    rewrite app_assoc.
    assert (Hlen : (2 <= length (reverse (touch_reads n d1).1
                                   ++ [m; currentTouchData self]))%nat).
    { rewrite length_app. simpl. lia. }
    rewrite (lookup_app_l _ _ 0%nat), (lookup_app_l _ _ 1%nat) by lia. done.
Qed.

End Generations.

(** ** Further properties: the store and the reachable objects *)

Lemma for_each_invariant_store {D S} (P : S -> gmap N D -> Prop)
    (body : Z -> S -> M D S) :
  (forall i s mem s' mem', body i s mem = Some (s', mem') -> P s mem -> P s' mem') ->
  forall indices s mem s' mem',
    for_each indices body s mem = Some (s', mem') -> P s mem -> P s' mem'.
Proof.
  intros Hbody indices.
  induction indices as [|i rest IH]; intros s mem s' mem' Hrun Hs.
  - by injection Hrun as <- <-.
  - simpl in Hrun. unfold bind in Hrun.
    destruct (body i s mem) as [[s1 mem1]|] eqn:Hstep; [|done].
    eapply IH; [done|]. by eapply Hbody.
Qed.

Lemma wf_getFilteredData (self : MPR121_Helper) (electrode : Z) :
  wf self -> 0 <= electrode ->
  exists v, getFilteredData self electrode = Some v /\ is_uint16 v.
Proof.
  intros [_ _ Hlen Hall] He. unfold getFilteredData.
  destruct (Z.gtb_spec electrode 11).
  - exists 0. split; [done | unfold is_uint16; lia].
  - replace electrode with (Z.of_nat (Z.to_nat electrode)) by lia.
    rewrite array_get_in_range by lia.
    destruct (lookup_lt_is_Some_2 (filteredDataCache self) (Z.to_nat electrode))
      as [v Hv]; [lia|].
    exists v. split; [done|].
    by eapply Forall_lookup_1.
Qed.

Section Store.

Context {D : Type} `{!Driver.Adafruit_MPR121 D}.

Implicit Types (self : MPR121_Helper) (mem : gmap N D) (d : D).

Lemma call_frame {A} (p : N) (method : D -> A * D) mem (a : A) mem' (q : N) :
  call p method mem = Some (a, mem') -> q <> p -> mem' !! q = mem !! q.
Proof.
  unfold call. intros Hrun Hq.
  destruct (mem !! p) as [d|]; [|done].
  destruct (method d) as [a' d']. injection Hrun as _ <-.
  by rewrite lookup_insert_ne.
Qed.

Lemma call_missing {A} (p : N) (method : D -> A * D) mem :
  mem !! p = None -> call p method mem = None.
Proof. unfold call. by intros ->. Qed.

Lemma refresh_body_frame (i : Z) self mem self' mem' (q : N) :
  (let* v := call (sensor self) (Driver.filteredData i) in
   store_filteredDataCache i v self)%prog mem = Some (self', mem') ->
  sensor self' = sensor self /\ (q <> sensor self -> mem' !! q = mem !! q).
Proof.
  unfold bind at 1. intros Hrun.
  destruct (call (sensor self) (Driver.filteredData i) mem) as [[v mem1]|] eqn:Hcall;
    [|done].
  unfold store_filteredDataCache, bind, lift, ret in Hrun.
  destruct (array_set (filteredDataCache self) i v); [|done].
  injection Hrun as <- <-. split; [done|].
  intros Hq. by eapply call_frame.
Qed.

Lemma updateFilteredData_frame self mem self' mem' (q : N) :
  updateFilteredData self mem = Some (self', mem') ->
  sensor self' = sensor self /\ (q <> sensor self -> mem' !! q = mem !! q).
Proof.
  intros Hrun.
  apply (for_each_invariant_store
           (fun s m => sensor s = sensor self
                       /\ (q <> sensor self -> m !! q = mem !! q))) in Hrun;
    [done | | done].
  clear. intros i s m s' m' Hbody [Hs Hm].
  apply (refresh_body_frame _ _ _ _ _ q) in Hbody as [Hs' Hm'].
  split; [congruence|]. intros Hq. rewrite Hm' by congruence. by apply Hm.
Qed.

Lemma updateTouchData_frame self mem self' mem' (q : N) :
  updateTouchData self mem = Some (self', mem') ->
  sensor self' = sensor self /\ (q <> sensor self -> mem' !! q = mem !! q).
Proof.
  unfold updateTouchData, bind. simpl. intros Hrun.
  destruct (call (sensor self) Driver.touched mem) as [[m mem1]|] eqn:Hcall; [|done].
  injection Hrun as <- <-. split; [done|].
  intros Hq. by eapply call_frame.
Qed.

(** X9. On every object a program can reach, the driver binding is the one
    given at construction, both masks and all cache entries are [uint16_t]
    values, the cache has its twelve slots, and [getFilteredData] is defined
    and in range for every electrode number. *)
Theorem reachable_invariant (cap : N) self mem :
  reachable cap self mem ->
  sensor self = cap
  /\ wf self
  /\ forall electrode, 0 <= electrode ->
       exists v, getFilteredData self electrode = Some v /\ is_uint16 v.
Proof.
  intros Hreach.
  assert (Hinv : sensor self = cap /\ wf self).
  { induction Hreach as
      [this mem self mem' Hlen Hnew
      |self mem self' mem' _ [IHs IHw] Hrun
      |self mem self' mem' _ [IHs IHw] Hrun
      | | | | ]; try done.
    - split; [|by eapply new_MPR121_Helper_wf].
      rewrite new_MPR121_Helper_run in Hnew by done. by injection Hnew as <- _.
    - split; [|by eapply updateTouchData_wf].
      apply (updateTouchData_frame _ _ _ _ cap) in Hrun as [-> _]. done.
    - split; [|by eapply updateFilteredData_wf].
      apply (updateFilteredData_frame _ _ _ _ cap) in Hrun as [-> _]. done. }
  destruct Hinv as [Hs Hw]. do 2 (split; [done|]).
  intros e He. by apply wf_getFilteredData.
Qed.


(** X11. No method checks the driver pointer.  With twelve cache slots, each
    of the five methods that call the driver completes exactly when the
    store holds a driver at the wrapper's address; otherwise its behaviour
    is undefined. *)
Theorem driver_calls_need_driver self mem :
  length (filteredDataCache self) = 12%nat ->
  (is_Some (updateTouchData self mem) <-> is_Some (mem !! sensor self))
  /\ (is_Some (updateFilteredData self mem) <-> is_Some (mem !! sensor self))
  /\ (forall touchThreshold releaseThreshold,
        is_Some (setThresholds self touchThreshold releaseThreshold mem)
        <-> is_Some (mem !! sensor self))
  /\ (forall threshold,
        is_Some (setTouchThreshold self threshold mem)
        <-> is_Some (mem !! sensor self))
  /\ (forall threshold,
        is_Some (setReleaseThreshold self threshold mem)
        <-> is_Some (mem !! sensor self)).
Proof.
  intros Hlen. destruct (mem !! sensor self) as [d|] eqn:Hp.
  - rewrite (updateTouchData_run _ _ d), (updateFilteredData_run _ _ d) by done.
    unfold setThresholds, setTouchThreshold, setReleaseThreshold, call_void.
    repeat split; intros; try rewrite (call_run _ _ _ d) by done; by eexists.
  - assert (Hnone : forall A (o : option A), o = None -> (is_Some o <-> is_Some (@None D))).
    { intros A o ->. split; intros [? ?]; done. }
    split; [|split; [|split; [|split]]]; intros; apply Hnone.
    + unfold updateTouchData, bind.
      by rewrite call_missing.
    + unfold updateFilteredData. rewrite seqZ_cons by lia.
      cbn [for_each]. unfold bind at 1, bind at 1. by rewrite call_missing.
    + by apply call_missing.
    + by apply call_missing.
    + by apply call_missing.
Qed.

(** X12. The two single-threshold setters do not combine: after
    [setTouchThreshold a] and then [setReleaseThreshold b] the driver has
    received [(a, 20)] and then [(40, b)], as if [setThresholds a 20] and
    [setThresholds 40 b] had been called. *)
Theorem single_setters_do_not_combine self mem d (a b : Z) :
  mem !! sensor self = Some d ->
  (let* _ := setTouchThreshold self a in setReleaseThreshold self b)%prog mem
    = Some (tt, <[sensor self :=
                   Driver.setThresholds 40 b (Driver.setThresholds a 20 d)]> mem)
  /\ (let* _ := setTouchThreshold self a in setReleaseThreshold self b)%prog mem
     = (let* _ := setThresholds self a 20 in setThresholds self 40 b)%prog mem.
Proof.
  intros Hp. split; [|done].
  unfold bind, setTouchThreshold, setReleaseThreshold, call_void.
  rewrite (call_run _ _ _ d) by done. simpl.
  rewrite (call_run _ _ _ (Driver.setThresholds a 20 d))
    by (by rewrite lookup_insert_eq).
  simpl. by rewrite insert_insert_eq.
Qed.

End Store.

(** ** Concrete runs for the further properties *)

Example scenario_single_setters :
  exists mem1 d,
    (let* _ := setTouchThreshold demo_helper 50 in
     setReleaseThreshold demo_helper 10)%prog demo_mem = Some (tt, mem1)
    /\ mem1 !! sensor demo_helper = Some d
    /\ thresholds_log d = [(50, 20); (40, 10)].
Proof. do 2 eexists. repeat split; vm_compute; reflexivity. Qed.

Lemma getNumTouches_twelve_iff_witness :
  getNumTouches (mkHelper 1 65535 0 []) = 12.
Proof.
  apply (proj2 (getNumTouches_twelve_iff (mkHelper 1 65535 0 []))).
  intros c Hc.
  assert (Hcases : c = 0 \/ c = 1 \/ c = 2 \/ c = 3 \/ c = 4 \/ c = 5 \/ c = 6
                   \/ c = 7 \/ c = 8 \/ c = 9 \/ c = 10 \/ c = 11) by lia.
  by repeat destruct Hcases as [->|Hcases]; [..|subst c].
Defined.

Lemma updateTouchData_shifts_generation_witness :
  exists self' mem',
    updateTouchData demo_helper demo_mem = Some (self', mem')
    /\ lastTouchData self' = currentTouchData demo_helper
    /\ forall electrode, wasTouched self' electrode = isTouched demo_helper electrode.
Proof.
  apply (updateTouchData_shifts_generation demo_helper demo_mem
           (mkMock [1; 3] demo_table [])).
  reflexivity.
Defined.

Lemma repeated_mask_no_edges_witness :
  exists self',
    updateTouchData (mkHelper 1 1 0 (replicate 12 0))
                    ({[ 1%N := mkMock [4097] demo_table [] ]} : gmap N MockSensor)
      = Some (self', <[1%N := mkMock [] demo_table []]>
                       {[ 1%N := mkMock [4097] demo_table [] ]})
    /\ forall electrode,
         isNewTouch self' electrode = false /\ isNewRelease self' electrode = false.
Proof.
  apply (repeated_mask_no_edges (mkHelper 1 1 0 (replicate 12 0))
           {[ 1%N := mkMock [4097] demo_table [] ]}
           (mkMock [4097] demo_table []) (mkMock [] demo_table []) 4097);
    reflexivity.
Defined.

Lemma first_refresh_reports_new_touches_witness :
  exists self',
    (let* self := new_MPR121_Helper raw_storage 1 in updateTouchData self)%prog demo_mem
      = Some (self', <[1%N := mkMock [3] demo_table []]> demo_mem)
    /\ forall electrode,
         isNewTouch self' electrode = isTouched self' electrode
         /\ isNewRelease self' electrode = false.
Proof.
  apply (first_refresh_reports_new_touches raw_storage 1 demo_mem
           (mkMock [1; 3] demo_table []) (mkMock [3] demo_table []) 1);
    reflexivity.
Defined.

Lemma poll_keeps_last_two_witness :
  exists self',
    poll 3 demo_helper demo_mem
      = Some (self', <[1%N := mkMock [] demo_table []]> demo_mem)
    /\ [0; 3; 1; 0; 0] !! 0%nat = Some (currentTouchData self')
    /\ [0; 3; 1; 0; 0] !! 1%nat = Some (lastTouchData self')
    /\ filteredDataCache self' = replicate 12 0
    /\ sensor self' = 1%N.
Proof.
  refine (poll_keeps_last_two 3 demo_helper demo_mem (mkMock [1; 3] demo_table []) _).
  reflexivity.
Defined.

Lemma reachable_invariant_witness :
  sensor (mkHelper 999 0 0 (replicate 12 0)) = 999%N
  /\ wf (mkHelper 999 0 0 (replicate 12 0))
  /\ forall electrode, 0 <= electrode ->
       exists v, getFilteredData (mkHelper 999 0 0 (replicate 12 0)) electrode = Some v
                 /\ is_uint16 v.
Proof.
  apply (reachable_invariant 999 (mkHelper 999 0 0 (replicate 12 0)) raw_mem).
  apply (reach_new 999 raw_storage raw_mem); reflexivity.
Defined.


Lemma driver_calls_need_driver_witness :
  (is_Some (updateTouchData demo_helper (∅ : gmap N MockSensor))
   <-> is_Some ((∅ : gmap N MockSensor) !! 1%N))
  /\ (is_Some (updateFilteredData demo_helper (∅ : gmap N MockSensor))
      <-> is_Some ((∅ : gmap N MockSensor) !! 1%N))
  /\ (forall touchThreshold releaseThreshold,
        is_Some (setThresholds demo_helper touchThreshold releaseThreshold
                   (∅ : gmap N MockSensor))
        <-> is_Some ((∅ : gmap N MockSensor) !! 1%N))
  /\ (forall threshold,
        is_Some (setTouchThreshold demo_helper threshold (∅ : gmap N MockSensor))
        <-> is_Some ((∅ : gmap N MockSensor) !! 1%N))
  /\ (forall threshold,
        is_Some (setReleaseThreshold demo_helper threshold (∅ : gmap N MockSensor))
        <-> is_Some ((∅ : gmap N MockSensor) !! 1%N)).
Proof. apply (driver_calls_need_driver demo_helper ∅). reflexivity. Defined.

Lemma single_setters_do_not_combine_witness :
  (let* _ := setTouchThreshold demo_helper 50 in
   setReleaseThreshold demo_helper 10)%prog demo_mem
    = Some (tt, <[1%N := mkMock [1; 3] demo_table [(50, 20); (40, 10)]]> demo_mem)
  /\ (let* _ := setTouchThreshold demo_helper 50 in
      setReleaseThreshold demo_helper 10)%prog demo_mem
     = (let* _ := setThresholds demo_helper 50 20 in
        setThresholds demo_helper 40 10)%prog demo_mem.
Proof.
  refine (single_setters_do_not_combine demo_helper demo_mem
            (mkMock [1; 3] demo_table []) 50 10 _).
  reflexivity.
Defined.
